(** * verify_weather_fix.py: the weather-forecast verification script

    A shallow embedding of [jules-scratch/verification/verify_weather_fix.py].
    The script is a straight line of calls into a browser-automation library,
    wrapped in one [try]/[finally] that closes the browser and one inner
    [try]/[except] that dumps diagnostics.  Every call either returns or
    raises; what it does is decided by the browser and the application under
    test, which are outside the script.  They are modelled by a [world]: an
    oracle that says, for every call the script can issue, whether the call
    breaks and how long the awaited condition takes to hold.

    A computation is a pair of the events it emitted, in order, and of its
    result (a value or a raised exception): a writer monad over an error
    monad, with Python's [try]/[except], [try]/[finally] and bare [raise]. *)

From Stdlib Require Import String List NArith ZArith Bool Lia.
Import ListNotations.
Local Open Scope string_scope.
Local Open Scope list_scope.

(** ** Exceptions

    The values bound by [except Exception as e]: the library's
    [TimeoutError] (raised by [page.goto]), the [AssertionError] raised by an
    [expect(...)] whose condition is not met in time, and any other
    [Exception] a call may raise. *)
Inductive exn : Type :=
| TimeoutError (ms : N)
| AssertionError (ms : N)
| Error (msg : string).

(** ** Locators

    Locators are lazy descriptions of elements; building one never talks to
    the browser, so they are plain values. *)
Inductive query : Type :=
| ByRole (role name : string)
| ByCss (selector : string)
| ByText (text : string)
| ByPlaceholder (text : string).

Inductive locator : Type :=
| OnPage (q : query)
| Inside (parent : locator) (q : query).

(** ** Calls and events *)
Inductive action : Type :=
| Launch (headless : bool)
| NewPage
| Goto (url : string)
| ToBeVisible (l : locator)
| ToBeHidden (l : locator)
| Click (l : locator)
| Fill (l : locator) (text : string)
| ScrollIntoViewIfNeeded (l : locator)
| Content
| Screenshot (path : string)
| Close.

(** What a run leaves behind, in order: calls without a [timeout=] argument,
    calls with one, lines printed to standard output and files written. *)
Inductive event : Type :=
| Called (a : action)
| Waited (a : action) (timeout : N)
| Printed (line : string)
| Wrote (path : string).

(** ** The world outside the script *)
Record world : Type := {
  fault : action -> option exn;   (* the call raises this, whatever the timing *)
  latency : action -> option N;   (* ms until the awaited condition holds; None: never *)
  markup : string;                (* what page.content() returns *)
  str : exn -> string             (* how an exception renders in an f-string *)
}.

(** ** The monad *)
Inductive result (A : Type) : Type :=
| Ok (a : A)
| Raise (e : exn).
Arguments Ok {A} a.
Arguments Raise {A} e.

Definition M (A : Type) : Type := (list event * result A)%type.

Definition ret {A} (a : A) : M A := ([], Ok a).

Definition raise {A} (e : exn) : M A := ([], Raise e).

Definition bind {A B} (m : M A) (k : A -> M B) : M B :=
  match m with
  | (t, Ok a) => let (t', r) := k a in (t ++ t', r)
  | (t, Raise e) => (t, Raise e)
  end.

(** [try: body except Exception as e: handler e] *)
Definition try_except {A} (body : M A) (handler : exn -> M A) : M A :=
  match body with
  | (t, Ok a) => (t, Ok a)
  | (t, Raise e) => let (t', r) := handler e in (t ++ t', r)
  end.

(** [try: body finally: cleanup].  The cleanup always runs; if it raises, its
    exception replaces whatever the body did. *)
Definition try_finally {A} (body : M A) (cleanup : M unit) : M A :=
  let (t, r) := body in
  let (t', c) := cleanup in
  (t ++ t', match c with Ok _ => r | Raise e' => Raise e' end).

Definition emit (ev : event) : M unit := ([ev], Ok tt).

Notation "x <- m ;; k" := (bind m (fun x => k))
  (at level 61, m at next level, right associativity).
Notation "m ;; k" := (bind m (fun _ => k))
  (at level 61, right associativity).

Definition trace {A} (m : M A) : list event := fst m.
Definition outcome {A} (m : M A) : result A := snd m.

(** ** Observations on a trace *)
Definition is_close (ev : event) : bool :=
  match ev with Called Close => true | _ => false end.

Definition closes (t : list event) : nat := length (filter is_close t).

Fixpoint files_written (t : list event) : list string :=
  match t with
  | [] => []
  | Wrote p :: t' => p :: files_written t'
  | _ :: t' => files_written t'
  end.

Fixpoint stdout (t : list event) : list string :=
  match t with
  | [] => []
  | Printed s :: t' => s :: stdout t'
  | _ :: t' => stdout t'
  end.

(** The library calls of a trace with their [timeout=] argument, if any. *)
Fixpoint calls (t : list event) : list (action * option N) :=
  match t with
  | [] => []
  | Called a :: t' => (a, None) :: calls t'
  | Waited a ms :: t' => (a, Some ms) :: calls t'
  | _ :: t' => calls t'
  end.

Definition event_eq_dec : forall x y : event, {x = y} + {x <> y}.
Proof.
  repeat decide equality.
Defined.

Fixpoint index_of (ev : event) (t : list event) : option nat :=
  match t with
  | [] => None
  | x :: t' =>
      if event_eq_dec x ev then Some 0
      else match index_of ev t' with Some i => Some (S i) | None => None end
  end.

(** [before a b t]: both happen in [t], and [a] first happens before [b]
    first happens. *)
Definition before (a b : event) (t : list event) : bool :=
  match index_of a t, index_of b t with
  | Some i, Some j => Nat.ltb i j
  | _, _ => false
  end.

(** ** The script *)

(** Handles returned by the library. *)
Inductive browser : Type := TheBrowser.
Inductive page : Type := ThePage.

Definition home_url : string := "http://localhost:5173".
Definition success_path : string := "jules-scratch/verification/verification.png".
Definition failure_path : string := "jules-scratch/verification/failure.png".
Definition suggestion_text : string :=
  "Wellington, Wellington City, Wellington, 6011, New Zealand / Aotearoa".

Definition day_button : locator := OnPage (ByRole "button" "15").
Definition lunar_modal_body : locator := OnPage (ByCss "div.lunar-modal-body").
Definition location_input : locator :=
  Inside lunar_modal_body (ByPlaceholder "Enter a location").
Definition suggestion_to_click : locator := OnPage (ByText suggestion_text).
Definition weather_header : locator :=
  Inside lunar_modal_body (ByRole "heading" "Weather Forecast").
Definition loading_text : locator :=
  Inside lunar_modal_body (ByText "Loading weather...").
Definition temperature_label : locator :=
  Inside lunar_modal_body (ByText "Temperature:").

Definition no_fault (o : option exn) : bool :=
  match o with None => true | Some _ => false end.

Section Script.

Variable w : world.

(** The awaited condition of [a] holds within [timeout] ms. *)
Definition in_time (a : action) (timeout : N) : bool :=
  match latency w a with
  | Some t => (t <=? timeout)%N
  | None => false
  end.

(** A call with no [timeout=] argument. *)
Definition call (a : action) : M unit :=
  ([Called a],
   match fault w a with
   | Some e => Raise e
   | None => Ok tt
   end).

(** A call with [timeout=timeout]; [late] is what it raises when the bound
    passes. *)
Definition timed (a : action) (timeout : N) (late : exn) : M unit :=
  ([Waited a timeout],
   match fault w a with
   | Some e => Raise e
   | None => if in_time a timeout then Ok tt else Raise late
   end).

Definition launch (headless : bool) : M browser :=
  call (Launch headless) ;; ret TheBrowser.

Definition new_page (b : browser) : M page :=
  call NewPage ;; ret ThePage.

Definition close (b : browser) : M unit := call Close.

Definition goto (p : page) (url : string) (timeout : N) : M unit :=
  timed (Goto url) timeout (TimeoutError timeout).

Definition expect_to_be_visible (l : locator) (timeout : N) : M unit :=
  timed (ToBeVisible l) timeout (AssertionError timeout).

Definition expect_to_be_hidden (l : locator) (timeout : N) : M unit :=
  timed (ToBeHidden l) timeout (AssertionError timeout).

Definition click (l : locator) : M unit := call (Click l).

Definition fill (l : locator) (text : string) : M unit := call (Fill l text).

Definition scroll_into_view_if_needed (l : locator) : M unit :=
  call (ScrollIntoViewIfNeeded l).

Definition content (p : page) : M string :=
  call Content ;; ret (markup w).

(** [page.screenshot(path=...)]: the file is there once the call returns. *)
Definition screenshot (p : page) (path : string) : M unit :=
  call (Screenshot path) ;; emit (Wrote path).

Definition print (line : string) : M unit := emit (Printed line).

(** Line 13. *)
Definition navigate (p : page) : M unit := goto p home_url 30000.

(** Lines 13-29: steps 1 to 3 of the script, up to the click on the
    suggestion. *)
Definition setup_steps (p : page) : M unit :=
  navigate p ;;
  expect_to_be_visible day_button 15000 ;;
  click day_button ;;
  expect_to_be_visible lunar_modal_body 10000 ;;
  fill location_input "Wellington" ;;
  expect_to_be_visible suggestion_to_click 15000 ;;
  click suggestion_to_click.

(** Lines 33-48: the body of the inner [try]. *)
Definition forecast_checks (p : page) : M unit :=
  scroll_into_view_if_needed weather_header ;;
  expect_to_be_visible weather_header 5000 ;;
  expect_to_be_hidden loading_text 15000 ;;
  expect_to_be_visible temperature_label 5000 ;;
  screenshot p success_path ;;
  print (String.append "Screenshot saved to " success_path).

(** Lines 50-56: the handler of the inner [try]. *)
Definition diagnose (p : page) (e : exn) : M unit :=
  print (String.append "An exception occurred during assertion: " (str w e)) ;;
  print "Dumping page content:" ;;
  html <- content p ;;
  print html ;;
  screenshot p failure_path ;;
  print (String.append "Failure screenshot saved to " failure_path) ;;
  raise e.

(** Lines 32-56. *)
Definition forecast_block (p : page) : M unit :=
  try_except (forecast_checks p) (diagnose p).

(** Lines 12-56: the body of the outer [try]. *)
Definition guarded (p : page) : M unit :=
  setup_steps p ;;
  forecast_block p.

(** Lines 3-59. *)
Definition run : M unit :=
  b <- launch true ;;
  p <- new_page b ;;
  try_finally (guarded p) (close b).

(** An exception that leaves [run] leaves the [with] block and the module
    unhandled: the interpreter exits with status 1. *)
Definition exit_status (r : result unit) : Z :=
  match r with
  | Ok _ => 0
  | Raise _ => 1
  end.

Definition main : list event * Z :=
  let (t, r) := run in (t, exit_status r).

End Script.

(** ** Some worlds *)

(** Everything answers at once and nothing breaks. *)
Definition calm : world :=
  {| fault := fun _ => None;
     latency := fun _ => Some 100%N;
     markup := "<html></html>";
     str := fun _ => "error" |}.

(** A browser that starts but cannot open a page. *)
Definition no_page : world :=
  {| fault := fun a => match a with NewPage => Some (Error "Target closed") | _ => None end;
     latency := fun _ => Some 100%N;
     markup := "<html></html>";
     str := fun _ => "error" |}.

(** A browser that cannot be started. *)
Definition no_browser : world :=
  {| fault := fun a => match a with Launch _ => Some (Error "Executable missing") | _ => None end;
     latency := fun _ => Some 100%N;
     markup := "<html></html>";
     str := fun _ => "error" |}.

(** ** Notions used in the statements *)

(** [only P m]: every event of [m] satisfies [P]. *)
Definition only (P : event -> bool) {A} (m : M A) : Prop :=
  forallb P (trace m) = true.

Definition not_close (ev : event) : bool := negb (is_close ev).

(** An event that is no part of a diagnostic capture or of a screenshot:
    nothing printed, no file written, no [page.content()], no
    [page.screenshot()]. *)
Definition quiet (ev : event) : bool :=
  match ev with
  | Printed _ | Wrote _ => false
  | Called Content | Called (Screenshot _) => false
  | _ => true
  end.

(** A bounded wait returns exactly when the call does not break and its
    condition holds in time. *)
Definition wait_ok (w : world) (a : action) (timeout : N) : bool :=
  no_fault (fault w a) && in_time w a timeout.

(** The three waits of the forecast phase all return. *)
Definition forecast_waits_pass (w : world) : bool :=
  wait_ok w (ToBeVisible weather_header) 5000 &&
  wait_ok w (ToBeHidden loading_text) 15000 &&
  wait_ok w (ToBeVisible temperature_label) 5000.

(** What the inner [try] leaves behind when it runs to its end. *)
Definition forecast_trace : list event :=
  [Called (ScrollIntoViewIfNeeded weather_header);
   Waited (ToBeVisible weather_header) 5000;
   Waited (ToBeHidden loading_text) 15000;
   Waited (ToBeVisible temperature_label) 5000;
   Called (Screenshot success_path);
   Wrote success_path;
   Printed (String.append "Screenshot saved to " success_path)].

(** The exception that leaves the handler: the one of the first diagnostic
    call that breaks, or else the one it was entered with. *)
Definition propagated (w : world) (e : exn) : exn :=
  match fault w Content with
  | Some e1 => e1
  | None =>
      match fault w (Screenshot failure_path) with
      | Some e2 => e2
      | None => e
      end
  end.

(** What the handler leaves behind. *)
Definition diagnose_trace (w : world) (e : exn) : list event :=
  [Printed (String.append "An exception occurred during assertion: " (str w e));
   Printed "Dumping page content:";
   Called Content] ++
  match fault w Content with
  | Some _ => []
  | None =>
      [Printed (markup w); Called (Screenshot failure_path)] ++
      match fault w (Screenshot failure_path) with
      | Some _ => []
      | None =>
          [Wrote failure_path;
           Printed (String.append "Failure screenshot saved to " failure_path)]
      end
  end.

(** The library calls of the forecast phase, in the order of lines 35-47. *)
Definition forecast_sequence : list (action * option N) :=
  [(ScrollIntoViewIfNeeded weather_header, None);
   (ToBeVisible weather_header, Some 5000%N);
   (ToBeHidden loading_text, Some 15000%N);
   (ToBeVisible temperature_label, Some 5000%N);
   (Screenshot success_path, None)].

(** The page takes twenty seconds to load; everything else is immediate. *)
Definition slow_load : world :=
  {| fault := fun _ => None;
     latency := fun a => match a with Goto _ => Some 20000%N | _ => Some 100%N end;
     markup := "<html></html>";
     str := fun _ => "error" |}.

(** Nothing listens at the address: the navigation is refused. *)
Definition offline : world :=
  {| fault := fun a =>
       match a with
       | Goto _ => Some (Error "net::ERR_CONNECTION_REFUSED")
       | _ => None
       end;
     latency := fun _ => Some 100%N;
     markup := "<html></html>";
     str := fun _ => "error" |}.

(** The application cannot be reached at [url]: the navigation is refused or
    otherwise breaks, or the page never loads. *)
Definition unreachable (w : world) (url : string) : Prop :=
  (exists e, fault w (Goto url) = Some e) \/ latency w (Goto url) = None.

(** The success screenshot cannot be saved; the failure screenshot can. *)
Definition read_only_success : world :=
  {| fault := fun a =>
       match a with
       | Screenshot path =>
           if String.eqb path success_path then Some (Error "EACCES") else None
       | _ => None
       end;
     latency := fun _ => Some 100%N;
     markup := "<html></html>";
     str := fun _ => "error" |}.

(** The loading text never goes away (scenario B of the specification). *)
Definition stuck_loading : world :=
  {| fault := fun _ => None;
     latency := fun a => match a with ToBeHidden _ => None | _ => Some 100%N end;
     markup := "<html>Loading weather...</html>";
     str := fun _ => "error" |}.

(** The loading text never goes away, and by the time the handler asks for
    the page content the page is gone. *)
Definition crashed : world :=
  {| fault := fun a => match a with Content => Some (Error "Target closed") | _ => None end;
     latency := fun a => match a with ToBeHidden _ => None | _ => Some 100%N end;
     markup := "<html>Loading weather...</html>";
     str := fun _ => "error" |}.

(** What the handler leaves behind when both of its calls return. *)
Definition full_diagnostics (w : world) (e : exn) : list event :=
  [Printed (String.append "An exception occurred during assertion: " (str w e));
   Printed "Dumping page content:";
   Called Content;
   Printed (markup w);
   Called (Screenshot failure_path);
   Wrote failure_path;
   Printed (String.append "Failure screenshot saved to " failure_path)].

Definition locator_eq_dec : forall x y : locator, {x = y} + {x <> y}.
Proof.
  repeat decide equality.
Defined.

(** The timeout policy in the words of the specification: three paces. *)
Inductive pace : Type :=
| NetworkBacked      (* initial load and dynamic network-backed content *)
| NearInstant        (* a heading or label already in the document *)
| ModalTransition.   (* the modal opening *)

Definition pace_timeout (c : pace) : N :=
  match c with
  | NetworkBacked => 15000
  | NearInstant => 5000
  | ModalTransition => 10000
  end.

(** The pace of each wait that follows the navigation.  The day button is
    there once the calendar has loaded; the suggestion and the end of the
    loading text depend on the network; the heading and the 'Temperature:'
    label are near-instant; the modal body is the modal transition. *)
Definition pace_of (a : action) : option pace :=
  match a with
  | ToBeVisible l =>
      if locator_eq_dec l day_button then Some NetworkBacked
      else if locator_eq_dec l suggestion_to_click then Some NetworkBacked
      else if locator_eq_dec l weather_header then Some NearInstant
      else if locator_eq_dec l temperature_label then Some NearInstant
      else if locator_eq_dec l lunar_modal_body then Some ModalTransition
      else None
  | ToBeHidden l =>
      if locator_eq_dec l loading_text then Some NetworkBacked else None
  | _ => None
  end.

Definition policy_timeout (a : action) : option N :=
  option_map pace_timeout (pace_of a).

Fixpoint waits (t : list event) : list (action * N) :=
  match t with
  | [] => []
  | Waited a ms :: t' => (a, ms) :: waits t'
  | _ :: t' => waits t'
  end.

Definition is_navigation (a : action) : bool :=
  match a with Goto _ => true | _ => false end.

(** A wait other than the navigation carries the timeout of its pace. *)
Definition keeps_policy (ev : event) : bool :=
  match ev with
  | Waited a ms =>
      is_navigation a ||
      match policy_timeout a with
      | Some ms' => (ms =? ms')%N
      | None => false
      end
  | _ => true
  end.

(** ** Notions used for the run as a whole *)

(** The browser's answer when closing it breaks. *)
Definition close_breaks : world :=
  {| fault := fun a => match a with Close => Some (Error "Connection lost") | _ => None end;
     latency := fun _ => Some 100%N;
     markup := "<html></html>";
     str := fun _ => "error" |}.

(** What steps 1 to 3 leave behind when they run to their end. *)
Definition setup_trace : list event :=
  [Waited (Goto home_url) 30000;
   Waited (ToBeVisible day_button) 15000;
   Called (Click day_button);
   Waited (ToBeVisible lunar_modal_body) 10000;
   Called (Fill location_input "Wellington");
   Waited (ToBeVisible suggestion_to_click) 15000;
   Called (Click suggestion_to_click)].

(** Every call of steps 1 to 3 returns. *)
Definition setup_pass (w : world) : bool :=
  wait_ok w (Goto home_url) 30000 &&
  wait_ok w (ToBeVisible day_button) 15000 &&
  no_fault (fault w (Click day_button)) &&
  wait_ok w (ToBeVisible lunar_modal_body) 10000 &&
  no_fault (fault w (Fill location_input "Wellington")) &&
  wait_ok w (ToBeVisible suggestion_to_click) 15000 &&
  no_fault (fault w (Click suggestion_to_click)).

(** The browser starts, the page opens and steps 1 to 3 return. *)
Definition forecast_reached (w : world) : bool :=
  no_fault (fault w (Launch true)) && no_fault (fault w NewPage) && setup_pass w.

(** Every call of the inner [try] returns. *)
Definition checks_pass (w : world) : bool :=
  no_fault (fault w (ScrollIntoViewIfNeeded weather_header)) &&
  forecast_waits_pass w &&
  no_fault (fault w (Screenshot success_path)).

Definition steps_pass (w : world) : bool := forecast_reached w && checks_pass w.

Definition all_pass (w : world) : bool :=
  steps_pass w && no_fault (fault w Close).

(** What [browser.close()] in the [finally] makes of the result [r] of the
    guarded block. *)
Definition after_close (w : world) (r : result unit) : result unit :=
  match fault w Close with
  | Some e' => Raise e'
  | None => r
  end.

(** The five ways a run can go. *)
Inductive run_case (w : world) : Prop :=
| NoBrowser (e : exn) :
    fault w (Launch true) = Some e ->
    run w = ([Called (Launch true)], Raise e) ->
    run_case w
| NoPage (e : exn) :
    fault w (Launch true) = None ->
    fault w NewPage = Some e ->
    run w = ([Called (Launch true); Called NewPage], Raise e) ->
    run_case w
| SetupFailed (e : exn) :
    fault w (Launch true) = None ->
    fault w NewPage = None ->
    outcome (setup_steps w ThePage) = Raise e ->
    run w =
      ([Called (Launch true); Called NewPage] ++
       trace (setup_steps w ThePage) ++ [Called Close],
       after_close w (Raise e)) ->
    run_case w
| ChecksPassed :
    fault w (Launch true) = None ->
    fault w NewPage = None ->
    outcome (setup_steps w ThePage) = Ok tt ->
    outcome (forecast_checks w ThePage) = Ok tt ->
    run w =
      ([Called (Launch true); Called NewPage] ++
       (setup_trace ++ forecast_trace) ++ [Called Close],
       after_close w (Ok tt)) ->
    run_case w
| ChecksFailed (e : exn) :
    fault w (Launch true) = None ->
    fault w NewPage = None ->
    outcome (setup_steps w ThePage) = Ok tt ->
    outcome (forecast_checks w ThePage) = Raise e ->
    run w =
      ([Called (Launch true); Called NewPage] ++
       (setup_trace ++ trace (forecast_checks w ThePage) ++ diagnose_trace w e) ++
       [Called Close],
       after_close w (Raise (propagated w e))) ->
    run_case w.

(** The library calls of the script in the order of its lines. *)
Definition program_order : list (action * option N) :=
  [(Launch true, None);
   (NewPage, None);
   (Goto home_url, Some 30000%N);
   (ToBeVisible day_button, Some 15000%N);
   (Click day_button, None);
   (ToBeVisible lunar_modal_body, Some 10000%N);
   (Fill location_input "Wellington", None);
   (ToBeVisible suggestion_to_click, Some 15000%N);
   (Click suggestion_to_click, None);
   (ScrollIntoViewIfNeeded weather_header, None);
   (ToBeVisible weather_header, Some 5000%N);
   (ToBeHidden loading_text, Some 15000%N);
   (ToBeVisible temperature_label, Some 5000%N);
   (Screenshot success_path, None);
   (Content, None);
   (Screenshot failure_path, None);
   (Close, None)].

(** [subseq l m]: [l] is [m] with some elements left out, order kept. *)
Inductive subseq {A : Type} : list A -> list A -> Prop :=
| subseq_nil : subseq [] []
| subseq_skip (x : A) (l m : list A) : subseq l m -> subseq l (x :: m)
| subseq_take (x : A) (l m : list A) : subseq l m -> subseq (x :: l) (x :: m).

(** The sum of the [timeout=] arguments of a list of calls, in ms. *)
Fixpoint wait_budget (l : list (action * option N)) : N :=
  match l with
  | [] => 0
  | (_, Some ms) :: l' => ms + wait_budget l'
  | (_, None) :: l' => wait_budget l'
  end.


(** * Properties *)

Example calm_run :
  run calm =
  ([Called (Launch true); Called NewPage;
    Waited (Goto home_url) 30000;
    Waited (ToBeVisible day_button) 15000;
    Called (Click day_button);
    Waited (ToBeVisible lunar_modal_body) 10000;
    Called (Fill location_input "Wellington");
    Waited (ToBeVisible suggestion_to_click) 15000;
    Called (Click suggestion_to_click);
    Called (ScrollIntoViewIfNeeded weather_header);
    Waited (ToBeVisible weather_header) 5000;
    Waited (ToBeHidden loading_text) 15000;
    Waited (ToBeVisible temperature_label) 5000;
    Called (Screenshot success_path);
    Wrote success_path;
    Printed (String.append "Screenshot saved to " success_path);
    Called Close],
   Ok tt).
Proof. reflexivity. Qed.

(** ** The monad's combinators *)

Lemma bind_ok {A B} (m : M A) (k : A -> M B) (a : A) :
  outcome m = Ok a ->
  bind m k = (trace m ++ trace (k a), outcome (k a)).
Proof.
  destruct m as [t r]; simpl; intros ->.
  destruct (k a); reflexivity.
Qed.

Lemma bind_raise {A B} (m : M A) (k : A -> M B) (e : exn) :
  outcome m = Raise e ->
  bind m k = (trace m, Raise e).
Proof.
  destruct m as [t r]; simpl; intros ->; reflexivity.
Qed.

Lemma try_except_ok {A} (m : M A) (h : exn -> M A) (a : A) :
  outcome m = Ok a ->
  try_except m h = (trace m, Ok a).
Proof.
  destruct m as [t r]; simpl; intros ->; reflexivity.
Qed.

Lemma try_except_raise {A} (m : M A) (h : exn -> M A) (e : exn) :
  outcome m = Raise e ->
  try_except m h = (trace m ++ trace (h e), outcome (h e)).
Proof.
  destruct m as [t r]; simpl; intros ->.
  destruct (h e); reflexivity.
Qed.

Lemma try_finally_trace {A} (m : M A) (c : M unit) :
  trace (try_finally m c) = trace m ++ trace c.
Proof.
  destruct m, c; reflexivity.
Qed.

(** ** Events a computation can emit

    The combinators preserve [only P], so it is checked call by call. *)

Lemma only_ret P {A} (a : A) : only P (ret a).
Proof. reflexivity. Qed.

Lemma only_raise P {A} (e : exn) : only P (@raise A e).
Proof. reflexivity. Qed.

Lemma only_emit P ev : P ev = true -> only P (emit ev).
Proof. unfold only; simpl; intros ->; reflexivity. Qed.

Lemma only_bind P {A B} (m : M A) (k : A -> M B) :
  only P m -> (forall a, only P (k a)) -> only P (bind m k).
Proof.
  unfold only; destruct m as [t [a|e]]; simpl; intros Hm Hk; auto.
  specialize (Hk a); destruct (k a) as [t' r]; simpl in *.
  rewrite forallb_app, Hm, Hk; reflexivity.
Qed.

Lemma only_try_except P {A} (m : M A) (h : exn -> M A) :
  only P m -> (forall e, only P (h e)) -> only P (try_except m h).
Proof.
  unfold only; destruct m as [t [a|e]]; simpl; intros Hm Hh; auto.
  specialize (Hh e); destruct (h e) as [t' r]; simpl in *.
  rewrite forallb_app, Hm, Hh; reflexivity.
Qed.

Lemma only_try_finally P {A} (m : M A) (c : M unit) :
  only P m -> only P c -> only P (try_finally m c).
Proof.
  unfold only; rewrite try_finally_trace, forallb_app.
  intros -> ->; reflexivity.
Qed.

Lemma only_call P w a : P (Called a) = true -> only P (call w a).
Proof. unfold only; simpl; intros ->; reflexivity. Qed.

Lemma only_timed P w a ms late :
  P (Waited a ms) = true -> only P (timed w a ms late).
Proof. unfold only; simpl; intros ->; reflexivity. Qed.

Lemma only_In P {A} (m : M A) ev :
  only P m -> In ev (trace m) -> P ev = true.
Proof.
  unfold only; intros H Hin.
  rewrite forallb_forall in H; auto.
Qed.

(** Unfolds the script down to the primitive calls and checks each one. *)
Ltac check_calls :=
  unfold run, guarded, forecast_block, forecast_checks, diagnose, setup_steps,
    navigate, launch, new_page, close, goto, expect_to_be_visible,
    expect_to_be_hidden, click, fill, scroll_into_view_if_needed, content,
    screenshot, print;
  repeat (first
    [ apply only_bind; [| intro]
    | apply only_try_except; [| intro]
    | apply only_try_finally
    | apply only_call; reflexivity
    | apply only_timed; reflexivity
    | apply only_emit; reflexivity
    | apply only_ret
    | apply only_raise ]).

(** ** The shape of a run *)

Lemma run_launch_fails w e :
  fault w (Launch true) = Some e ->
  run w = ([Called (Launch true)], Raise e).
Proof.
  intros H; unfold run, launch, call; simpl; rewrite H; reflexivity.
Qed.

Lemma run_new_page_fails w e :
  fault w (Launch true) = None ->
  fault w NewPage = Some e ->
  run w = ([Called (Launch true); Called NewPage], Raise e).
Proof.
  intros H1 H2; unfold run, launch, new_page, call; simpl.
  rewrite H1; simpl; rewrite H2; reflexivity.
Qed.

Lemma run_started w :
  fault w (Launch true) = None ->
  fault w NewPage = None ->
  run w =
  ([Called (Launch true); Called NewPage] ++ trace (guarded w ThePage) ++ [Called Close],
   match fault w Close with
   | Some e' => Raise e'
   | None => outcome (guarded w ThePage)
   end).
Proof.
  intros H1 H2.
  assert (L : launch w true = ([Called (Launch true)], Ok TheBrowser))
    by (unfold launch, call; rewrite H1; reflexivity).
  assert (P : new_page w TheBrowser = ([Called NewPage], Ok ThePage))
    by (unfold new_page, call; rewrite H2; reflexivity).
  unfold run; rewrite L; cbn [bind]; rewrite P; cbn [bind].
  unfold close, call; destruct (guarded w ThePage) as [t r].
  cbn; destruct (fault w Close); reflexivity.
Qed.

Lemma guarded_setup_fails w p e :
  outcome (setup_steps w p) = Raise e ->
  guarded w p = (trace (setup_steps w p), Raise e).
Proof.
  intros H; unfold guarded; rewrite (bind_raise _ _ e H); reflexivity.
Qed.

Lemma guarded_setup_ok w p :
  outcome (setup_steps w p) = Ok tt ->
  guarded w p =
  (trace (setup_steps w p) ++ trace (forecast_block w p),
   outcome (forecast_block w p)).
Proof.
  intros H; unfold guarded; rewrite (bind_ok _ _ tt H); reflexivity.
Qed.

Lemma closes_app t1 t2 : closes (t1 ++ t2) = closes t1 + closes t2.
Proof. unfold closes; rewrite filter_app, length_app; reflexivity. Qed.

Lemma not_close_closes t : forallb not_close t = true -> closes t = 0.
Proof.
  unfold closes, not_close; induction t as [|ev t IH]; simpl; auto.
  intros H; apply andb_prop in H as [Hev Ht].
  destruct (is_close ev); [discriminate | auto].
Qed.

Lemma guarded_never_closes w p : only not_close (guarded w p).
Proof. check_calls. Qed.

Lemma run_started_trace w :
  fault w (Launch true) = None ->
  fault w NewPage = None ->
  trace (run w) =
  [Called (Launch true); Called NewPage] ++
  trace (guarded w ThePage) ++ [Called Close].
Proof.
  intros H1 H2; rewrite (run_started w H1 H2); reflexivity.
Qed.

Lemma browser_closed_once_started w :
  fault w (Launch true) = None ->
  fault w NewPage = None ->
  closes (trace (run w)) = 1.
Proof.
  intros H1 H2; rewrite (run_started_trace w H1 H2), !closes_app.
  rewrite (not_close_closes _ (guarded_never_closes w ThePage)); reflexivity.
Qed.

(** C1 (as amended): whenever the browser was launched and its page created,
    the run calls [browser.close()] exactly once, as its last action, whether
    the steps in between succeed or any of them raises. *)
Theorem browser_closed_exactly_once w :
  fault w (Launch true) = None ->
  fault w NewPage = None ->
  closes (trace (run w)) = 1 /\
  exists t, trace (run w) = t ++ [Called Close] /\ closes t = 0.
Proof.
  intros H1 H2.
  pose proof (not_close_closes _ (guarded_never_closes w ThePage)) as H0.
  split.
  - exact (browser_closed_once_started w H1 H2).
  - rewrite (run_started_trace w H1 H2).
    exists ([Called (Launch true); Called NewPage] ++ trace (guarded w ThePage)).
    split; [rewrite <- app_assoc; reflexivity |].
    rewrite closes_app, H0; reflexivity.
Qed.

Lemma browser_closed_exactly_once_witness :
  closes (trace (run calm)) = 1 /\
  exists t, trace (run calm) = t ++ [Called Close] /\ closes t = 0.
Proof.
  apply (browser_closed_exactly_once calm); reflexivity.
Defined.

(** C1 as stated fails: when page creation raises (it sits before the
    [try]), the browser was launched and the run ends without closing it;
    when the launch itself raises there is nothing to close and nothing is
    closed. *)
Lemma browser_not_closed_counterexample :
  run no_page =
    ([Called (Launch true); Called NewPage], Raise (Error "Target closed")) /\
  closes (trace (run no_page)) <> 1 /\
  closes (trace (run no_browser)) <> 1.
Proof.
  repeat split; vm_compute; discriminate.
Qed.

(** ** Observations distribute over concatenation *)

Lemma files_written_app t1 t2 :
  files_written (t1 ++ t2) = files_written t1 ++ files_written t2.
Proof.
  induction t1 as [|[a|a ms|s|f] t1 IH]; simpl; auto.
  rewrite IH; reflexivity.
Qed.

Lemma quiet_observations t :
  forallb quiet t = true ->
  stdout t = [] /\ files_written t = [] /\
  ~ In (Called Content) t /\ (forall path, ~ In (Called (Screenshot path)) t).
Proof.
  induction t as [|ev t IH]; simpl.
  - intros _; repeat split; auto.
  - intros H; apply andb_prop in H as [Hev Ht].
    destruct (IH Ht) as (Ho & Hf & Hc & Hs).
    destruct ev as [a|a ms|s|f]; simpl in Hev; try discriminate;
      repeat split; auto.
    + intros [E|E]; [inversion E; subst; discriminate | auto].
    + intros path [E|E]; [inversion E; subst; discriminate | exact (Hs path E)].
    + intros [E|E]; [discriminate | auto].
    + intros path [E|E]; [discriminate | exact (Hs path E)].
Qed.

Lemma setup_steps_quiet w p : only quiet (setup_steps w p).
Proof. check_calls. Qed.

(** ** The forecast checks and their handler, case by case *)

Lemma timed_outcome w a ms late :
  outcome (timed w a ms late) =
  match fault w a with
  | Some e => Raise e
  | None => if in_time w a ms then Ok tt else Raise late
  end.
Proof. reflexivity. Qed.

Lemma timed_ok w a ms late :
  outcome (timed w a ms late) = Ok tt <-> wait_ok w a ms = true.
Proof.
  rewrite timed_outcome; unfold wait_ok.
  destruct (fault w a); simpl; [split; discriminate |].
  destruct (in_time w a ms); split; auto; discriminate.
Qed.

Lemma forecast_waits_pass_spec w :
  forecast_waits_pass w = true <->
  outcome (expect_to_be_visible w weather_header 5000) = Ok tt /\
  outcome (expect_to_be_hidden w loading_text 15000) = Ok tt /\
  outcome (expect_to_be_visible w temperature_label 5000) = Ok tt.
Proof.
  unfold forecast_waits_pass, expect_to_be_visible, expect_to_be_hidden.
  rewrite !timed_ok, !andb_true_iff; tauto.
Qed.

Ltac unfold_calls :=
  unfold forecast_checks, diagnose, setup_steps, navigate, goto,
    expect_to_be_visible, expect_to_be_hidden, click, fill,
    scroll_into_view_if_needed, content, screenshot, print, emit, timed, call.

(** Splits on what the world answers to the call [a], then to its timing. *)
Ltac answer w a :=
  destruct (fault w a) eqn:?; cbn in *; try discriminate; auto.
Ltac on_time w a ms :=
  destruct (in_time w a ms) eqn:?; cbn in *; try discriminate; auto.

Lemma forecast_checks_ok w p :
  outcome (forecast_checks w p) = Ok tt ->
  trace (forecast_checks w p) = forecast_trace.
Proof.
  unfold_calls; cbn.
  answer w (ScrollIntoViewIfNeeded weather_header).
  answer w (ToBeVisible weather_header).
  on_time w (ToBeVisible weather_header) 5000%N.
  answer w (ToBeHidden loading_text).
  on_time w (ToBeHidden loading_text) 15000%N.
  answer w (ToBeVisible temperature_label).
  on_time w (ToBeVisible temperature_label) 5000%N.
  answer w (Screenshot success_path).
Qed.

Lemma forecast_checks_prefix w p :
  exists n, trace (forecast_checks w p) = firstn (S n) forecast_trace.
Proof.
  unfold_calls; cbn.
  answer w (ScrollIntoViewIfNeeded weather_header); [now exists 0 |].
  answer w (ToBeVisible weather_header); [now exists 1 |].
  on_time w (ToBeVisible weather_header) 5000%N; [| now exists 1].
  answer w (ToBeHidden loading_text); [now exists 2 |].
  on_time w (ToBeHidden loading_text) 15000%N; [| now exists 2].
  answer w (ToBeVisible temperature_label); [now exists 3 |].
  on_time w (ToBeVisible temperature_label) 5000%N; [| now exists 3].
  answer w (Screenshot success_path); [now exists 4 | now exists 6].
Qed.

(** When a forecast wait does not pass, the checks raise before the success
    screenshot: at most the scroll and the three waits were issued. *)
Lemma forecast_checks_wait_fails w p :
  forecast_waits_pass w = false ->
  (exists e, outcome (forecast_checks w p) = Raise e) /\
  forallb quiet (trace (forecast_checks w p)) = true.
Proof.
  unfold forecast_waits_pass, wait_ok; unfold_calls; cbn.
  answer w (ScrollIntoViewIfNeeded weather_header); [eauto |].
  answer w (ToBeVisible weather_header); [eauto |].
  on_time w (ToBeVisible weather_header) 5000%N; [| eauto].
  answer w (ToBeHidden loading_text); [eauto |].
  on_time w (ToBeHidden loading_text) 15000%N; [| eauto].
  answer w (ToBeVisible temperature_label); [eauto |].
  on_time w (ToBeVisible temperature_label) 5000%N; eauto.
Qed.

Lemma diagnose_runs w p e :
  diagnose w p e = (diagnose_trace w e, Raise (propagated w e)).
Proof.
  unfold diagnose_trace, propagated; unfold_calls; cbn.
  answer w Content.
  answer w (Screenshot failure_path).
Qed.

Lemma forecast_block_raises w p e :
  outcome (forecast_checks w p) = Raise e ->
  forecast_block w p =
  (trace (forecast_checks w p) ++ diagnose_trace w e, Raise (propagated w e)).
Proof.
  intros H; unfold forecast_block.
  rewrite (try_except_raise _ _ e H), diagnose_runs; reflexivity.
Qed.

Lemma forecast_block_ok w p :
  outcome (forecast_block w p) = Ok tt ->
  outcome (forecast_checks w p) = Ok tt.
Proof.
  destruct (outcome (forecast_checks w p)) as [[]|e] eqn:E; auto.
  rewrite (forecast_block_raises _ _ _ E); discriminate.
Qed.

(** ** Runs that reach the forecast phase, and runs that return *)

Lemma run_reaches_forecast w :
  fault w (Launch true) = None ->
  fault w NewPage = None ->
  outcome (setup_steps w ThePage) = Ok tt ->
  run w =
  ([Called (Launch true); Called NewPage] ++
   (trace (setup_steps w ThePage) ++ trace (forecast_block w ThePage)) ++
   [Called Close],
   match fault w Close with
   | Some e' => Raise e'
   | None => outcome (forecast_block w ThePage)
   end).
Proof.
  intros H1 H2 H3.
  rewrite (run_started w H1 H2), (guarded_setup_ok w ThePage H3); reflexivity.
Qed.

Lemma run_stops_in_setup w e :
  fault w (Launch true) = None ->
  fault w NewPage = None ->
  outcome (setup_steps w ThePage) = Raise e ->
  run w =
  ([Called (Launch true); Called NewPage] ++
   trace (setup_steps w ThePage) ++ [Called Close],
   match fault w Close with
   | Some e' => Raise e'
   | None => Raise e
   end).
Proof.
  intros H1 H2 H3.
  rewrite (run_started w H1 H2), (guarded_setup_fails w ThePage e H3); reflexivity.
Qed.

Lemma run_returns w :
  outcome (run w) = Ok tt ->
  run w =
  ([Called (Launch true); Called NewPage] ++
   (trace (setup_steps w ThePage) ++ forecast_trace) ++ [Called Close],
   Ok tt).
Proof.
  intros H.
  destruct (fault w (Launch true)) as [e|] eqn:H1;
    [rewrite (run_launch_fails w e H1) in H; discriminate |].
  destruct (fault w NewPage) as [e|] eqn:H2;
    [rewrite (run_new_page_fails w e H1 H2) in H; discriminate |].
  destruct (outcome (setup_steps w ThePage)) as [[]|e] eqn:H3.
  - rewrite (run_reaches_forecast w H1 H2 H3) in *; cbn [outcome snd] in H.
    destruct (fault w Close); [discriminate |].
    pose proof (forecast_block_ok w ThePage H) as Hc.
    unfold forecast_block.
    rewrite (try_except_ok _ _ tt Hc), (forecast_checks_ok w ThePage Hc).
    reflexivity.
  - rewrite (run_stops_in_setup w e H1 H2 H3) in H; cbn [outcome snd] in H.
    destruct (fault w Close); discriminate.
Qed.

(** C6: a run that returns normally wrote exactly one file, the screenshot at
    the success path, and so no file at the failure path. *)
Theorem successful_run_writes_success_screenshot_only w :
  outcome (run w) = Ok tt ->
  files_written (trace (run w)) = [success_path] /\
  ~ In (Wrote failure_path) (trace (run w)) /\
  ~ In (Called (Screenshot failure_path)) (trace (run w)).
Proof.
  intros H; rewrite (run_returns w H); cbn [trace fst].
  destruct (quiet_observations _ (setup_steps_quiet w ThePage))
    as (_ & Hf & _ & Hs).
  split; [| split].
  - cbn [app files_written]; rewrite !files_written_app, Hf; reflexivity.
  - cbn [app]; intros [E|[E|E]]; try discriminate.
    rewrite <- app_assoc in E; apply in_app_or in E as [E|E].
    + pose proof (only_In quiet _ _ (setup_steps_quiet w ThePage) E);
        discriminate.
    + cbn in E; repeat (destruct E as [E|E]; [discriminate |]); exact E.
  - cbn [app]; intros [E|[E|E]]; try discriminate.
    rewrite <- app_assoc in E; apply in_app_or in E as [E|E].
    + exact (Hs _ E).
    + cbn in E; repeat (destruct E as [E|E]; [discriminate |]); exact E.
Qed.

Lemma successful_run_writes_success_screenshot_only_witness :
  files_written (trace (run calm)) = [success_path] /\
  ~ In (Wrote failure_path) (trace (run calm)) /\
  ~ In (Called (Screenshot failure_path)) (trace (run calm)).
Proof.
  apply (successful_run_writes_success_screenshot_only calm); reflexivity.
Defined.

(** ** The order of the forecast phase *)

(** C5 (as amended): the forecast phase first scrolls the heading into view,
    then waits for the heading to be visible, then for the loading text to be
    hidden, then for the 'Temperature:' label to be visible.  Whatever the
    world answers, the calls issued are the first [n+1] of that sequence (the
    scroll is always issued); when the checks pass they are all of it. *)
Theorem forecast_phase_order w p :
  (exists n, calls (trace (forecast_checks w p)) = firstn (S n) forecast_sequence) /\
  (outcome (forecast_checks w p) = Ok tt ->
   calls (trace (forecast_checks w p)) = forecast_sequence).
Proof.
  split.
  - destruct (forecast_checks_prefix w p) as [n Hn]; rewrite Hn.
    destruct n as [|[|[|[|n]]]];
      [now exists 0 | now exists 1 | now exists 2 | now exists 3 |].
    exists 4; destruct n as [|[|[|n]]]; reflexivity.
  - intros H; rewrite (forecast_checks_ok w p H); reflexivity.
Qed.

Lemma forecast_phase_order_witness :
  calls (trace (forecast_checks calm ThePage)) = forecast_sequence.
Proof.
  apply (proj2 (forecast_phase_order calm ThePage)); reflexivity.
Defined.

(** C5 as stated fails: in a run where everything succeeds the wait for the
    heading does not come before the scroll; the scroll comes first. *)
Lemma heading_wait_before_scroll_counterexample :
  before (Waited (ToBeVisible weather_header) 5000)
         (Called (ScrollIntoViewIfNeeded weather_header))
         (trace (run calm)) = false /\
  before (Called (ScrollIntoViewIfNeeded weather_header))
         (Waited (ToBeVisible weather_header) 5000)
         (trace (run calm)) = true.
Proof.
  split; vm_compute; reflexivity.
Qed.

(** ** Navigation *)

(** C3 (as amended): the initial page load is bounded by 30 seconds, not 15:
    unless the call breaks for another reason, [page.goto] returns exactly
    when the page loads within 30000 ms and raises the navigation timeout
    exactly when it does not. *)
Theorem navigation_timeout_is_30s w p :
  fault w (Goto home_url) = None ->
  trace (navigate w p) = [Waited (Goto home_url) 30000] /\
  (outcome (navigate w p) = Ok tt <->
   exists t, latency w (Goto home_url) = Some t /\ (t <= 30000)%N) /\
  (outcome (navigate w p) = Raise (TimeoutError 30000) <->
   ~ exists t, latency w (Goto home_url) = Some t /\ (t <= 30000)%N).
Proof.
  intros H; split; [reflexivity |].
  unfold navigate, goto; rewrite timed_outcome, H; unfold in_time.
  destruct (latency w (Goto home_url)) as [t|].
  - destruct (N.leb_spec t 30000) as [L|L]; split; split.
    + intros _; exists t; auto.
    + reflexivity.
    + discriminate.
    + intros C; exfalso; apply C; exists t; auto.
    + discriminate.
    + intros (t' & E & L'); inversion E; subst; lia.
    + intros _ (t' & E & L'); inversion E; subst; lia.
    + reflexivity.
  - split; split.
    + discriminate.
    + intros (t' & E & _); discriminate.
    + intros _ (t' & E & _); discriminate.
    + reflexivity.
Qed.

Lemma navigation_timeout_is_30s_witness :
  trace (navigate slow_load ThePage) = [Waited (Goto home_url) 30000] /\
  (outcome (navigate slow_load ThePage) = Ok tt <->
   exists t, latency slow_load (Goto home_url) = Some t /\ (t <= 30000)%N) /\
  (outcome (navigate slow_load ThePage) = Raise (TimeoutError 30000) <->
   ~ exists t, latency slow_load (Goto home_url) = Some t /\ (t <= 30000)%N).
Proof.
  apply (navigation_timeout_is_30s slow_load ThePage); reflexivity.
Defined.

(** C3 as stated fails: a page that needs 20 seconds has not loaded within
    15 seconds, and still the navigation returns and the run goes on to
    succeed. *)
Lemma navigation_15s_counterexample :
  latency slow_load (Goto home_url) = Some 20000%N /\
  (15000 < 20000)%N /\
  outcome (navigate slow_load ThePage) = Ok tt /\
  outcome (run slow_load) = Ok tt.
Proof.
  repeat split.
Qed.

Lemma main_status w : snd (main w) = exit_status (outcome (run w)).
Proof. unfold main; destruct (run w); reflexivity. Qed.

Lemma setup_stops_at_navigation w p e :
  outcome (navigate w p) = Raise e ->
  setup_steps w p = ([Waited (Goto home_url) 30000], Raise e).
Proof.
  intros H; unfold setup_steps; rewrite (bind_raise _ _ e H); reflexivity.
Qed.

(** C8: when the application is unreachable at the fixed address, the
    navigation, bounded by 30 seconds, raises; nothing but the closing of the
    browser follows; the exception leaves the run, so the process exits with a
    non-zero status; and no screenshot was asked for, so no file, at the
    success path or at the failure path, was written. *)
Theorem unreachable_app_fails_without_screenshots w :
  fault w (Launch true) = None ->
  fault w NewPage = None ->
  unreachable w home_url ->
  exists e,
    outcome (navigate w ThePage) = Raise e /\
    (fault w (Goto home_url) = None -> e = TimeoutError 30000) /\
    trace (run w) =
      [Called (Launch true); Called NewPage;
       Waited (Goto home_url) 30000; Called Close] /\
    (fault w Close = None -> outcome (run w) = Raise e) /\
    snd (main w) <> 0%Z /\
    files_written (trace (run w)) = [].
Proof.
  intros H1 H2 U.
  assert (exists e, outcome (navigate w ThePage) = Raise e /\
                    (fault w (Goto home_url) = None -> e = TimeoutError 30000))
    as (e & He & Ht).
  { unfold navigate, goto; rewrite timed_outcome; unfold in_time.
    destruct U as [[e U]|U]; rewrite U.
    - exists e; split; [reflexivity | discriminate].
    - destruct (fault w (Goto home_url)) as [e|]; eauto.
      exists e; split; [reflexivity | discriminate]. }
  exists e; split; [exact He | split; [exact Ht |]].
  pose proof (setup_stops_at_navigation w ThePage e He) as S.
  assert (S' : outcome (setup_steps w ThePage) = Raise e) by (rewrite S; reflexivity).
  rewrite main_status, (run_stops_in_setup w e H1 H2 S'), S; cbn.
  repeat split.
  - intros ->; reflexivity.
  - destruct (fault w Close); discriminate.
Qed.

Lemma unreachable_app_fails_without_screenshots_witness :
  exists e,
    outcome (navigate offline ThePage) = Raise e /\
    (fault offline (Goto home_url) = None -> e = TimeoutError 30000) /\
    trace (run offline) =
      [Called (Launch true); Called NewPage;
       Waited (Goto home_url) 30000; Called Close] /\
    (fault offline Close = None -> outcome (run offline) = Raise e) /\
    snd (main offline) <> 0%Z /\
    files_written (trace (run offline)) = [].
Proof.
  apply (unreachable_app_fails_without_screenshots offline);
    [reflexivity | reflexivity |].
  left; eexists; reflexivity.
Defined.

(** ** Failures before the forecast phase *)

(** C4 (as amended): an exception raised in steps 1 to 3 of the script
    (navigation, opening the modal, entering the location, choosing the
    suggestion) leaves the run with no diagnostic capture: nothing is
    printed, the page content is not read, no screenshot is asked for and no
    file is written; once the browser is closed it is that exception that
    leaves the run. *)
Theorem early_failure_has_no_diagnostics w e :
  fault w (Launch true) = None ->
  fault w NewPage = None ->
  outcome (setup_steps w ThePage) = Raise e ->
  stdout (trace (run w)) = [] /\
  files_written (trace (run w)) = [] /\
  ~ In (Called Content) (trace (run w)) /\
  (forall path, ~ In (Called (Screenshot path)) (trace (run w))) /\
  (fault w Close = None -> outcome (run w) = Raise e).
Proof.
  intros H1 H2 H3; rewrite (run_stops_in_setup w e H1 H2 H3).
  cbn [trace outcome fst snd].
  assert (Q : forallb quiet
                ([Called (Launch true); Called NewPage] ++
                 trace (setup_steps w ThePage) ++ [Called Close]) = true).
  { rewrite !forallb_app, (setup_steps_quiet w ThePage); reflexivity. }
  destruct (quiet_observations _ Q) as (Ho & Hf & Hc & Hs).
  repeat split; auto.
  intros ->; reflexivity.
Qed.

Lemma early_failure_has_no_diagnostics_witness :
  stdout (trace (run offline)) = [] /\
  files_written (trace (run offline)) = [] /\
  ~ In (Called Content) (trace (run offline)) /\
  (forall path, ~ In (Called (Screenshot path)) (trace (run offline))) /\
  (fault offline Close = None ->
   outcome (run offline) = Raise (Error "net::ERR_CONNECTION_REFUSED")).
Proof.
  apply (early_failure_has_no_diagnostics offline); reflexivity.
Defined.

(** C4 as stated fails for the success screenshot: it is taken inside the
    inner [try], so when it raises after the three waits have passed, the
    handler runs: the page markup is printed and the failure screenshot is
    written. *)
Lemma success_screenshot_failure_counterexample :
  forecast_waits_pass read_only_success = true /\
  outcome (forecast_checks read_only_success ThePage) = Raise (Error "EACCES") /\
  stdout (trace (run read_only_success)) =
    ["An exception occurred during assertion: error";
     "Dumping page content:";
     markup read_only_success;
     String.append "Failure screenshot saved to " failure_path] /\
  files_written (trace (run read_only_success)) = [failure_path].
Proof.
  repeat split.
Qed.

(** ** Failures in the forecast phase *)

Lemma paths_differ : failure_path <> success_path.
Proof. apply String.eqb_neq; reflexivity. Qed.

Lemma In_files_written path t : In (Wrote path) t <-> In path (files_written t).
Proof.
  induction t as [|ev t IH]; simpl; [tauto |].
  destruct ev as [a|a ms|s|f]; simpl; rewrite <- IH;
    (split; [intros [E|E] | intros E]); auto; try discriminate.
  - inversion E; auto.
  - destruct E as [E|E]; [subst |]; auto.
Qed.

(** C2 (as amended): when the forecast checks raise and the two diagnostic
    calls of the handler return, the handler prints the page markup, writes
    the failure screenshot, and re-raises the exception it caught; the run
    ends with handler output followed by the closing of the browser, never
    returns normally, and, once the browser is closed, raises that same
    exception. *)
Theorem forecast_failure_is_diagnosed_and_reraised w e :
  fault w (Launch true) = None ->
  fault w NewPage = None ->
  outcome (setup_steps w ThePage) = Ok tt ->
  outcome (forecast_checks w ThePage) = Raise e ->
  fault w Content = None ->
  fault w (Screenshot failure_path) = None ->
  (exists t, trace (run w) = t ++ full_diagnostics w e ++ [Called Close]) /\
  In (Printed (markup w)) (trace (run w)) /\
  In (Wrote failure_path) (trace (run w)) /\
  outcome (forecast_block w ThePage) = Raise e /\
  (exists e', outcome (run w) = Raise e') /\
  (fault w Close = None -> outcome (run w) = Raise e).
Proof.
  intros H1 H2 H3 H4 H5 H6.
  rewrite (run_reaches_forecast w H1 H2 H3), (forecast_block_raises w ThePage e H4).
  unfold diagnose_trace, propagated; rewrite H5, H6; cbn [trace outcome fst snd].
  change ([Printed (String.append "An exception occurred during assertion: " (str w e));
           Printed "Dumping page content:"; Called Content] ++
          [Printed (markup w); Called (Screenshot failure_path)] ++
          [Wrote failure_path;
           Printed (String.append "Failure screenshot saved to " failure_path)])
    with (full_diagnostics w e).
  repeat split.
  - exists ([Called (Launch true); Called NewPage] ++
            trace (setup_steps w ThePage) ++ trace (forecast_checks w ThePage)).
    rewrite <- !app_assoc; reflexivity.
  - apply in_or_app; right; apply in_or_app; left.
    apply in_or_app; right; apply in_or_app; right.
    unfold full_diagnostics; simpl; auto.
  - apply in_or_app; right; apply in_or_app; left.
    apply in_or_app; right; apply in_or_app; right.
    unfold full_diagnostics; simpl; auto 10.
  - destruct (fault w Close); eauto.
  - intros ->; reflexivity.
Qed.

Lemma forecast_failure_is_diagnosed_and_reraised_witness :
  (exists t, trace (run stuck_loading) =
             t ++ full_diagnostics stuck_loading (AssertionError 15000) ++
             [Called Close]) /\
  In (Printed (markup stuck_loading)) (trace (run stuck_loading)) /\
  In (Wrote failure_path) (trace (run stuck_loading)) /\
  outcome (forecast_block stuck_loading ThePage) = Raise (AssertionError 15000) /\
  (exists e', outcome (run stuck_loading) = Raise e') /\
  (fault stuck_loading Close = None ->
   outcome (run stuck_loading) = Raise (AssertionError 15000)).
Proof.
  apply (forecast_failure_is_diagnosed_and_reraised stuck_loading); reflexivity.
Defined.

(** C2 as stated fails: the wait for the loading text times out, the handler
    starts, [page.content()] raises; the markup is never printed, no failure
    screenshot is written, and the exception that leaves the run is the one
    of [page.content()], not the original one. *)
Lemma diagnostics_lost_counterexample :
  outcome (forecast_checks crashed ThePage) = Raise (AssertionError 15000) /\
  stdout (trace (run crashed)) =
    ["An exception occurred during assertion: error"; "Dumping page content:"] /\
  files_written (trace (run crashed)) = [] /\
  outcome (run crashed) = Raise (Error "Target closed") /\
  outcome (run crashed) <> Raise (AssertionError 15000).
Proof.
  repeat split; discriminate.
Qed.

(** C9: after the forecast checks raised, the exception that leaves the
    handler is the one of [page.content()] if that call raises, else the one
    of the failure screenshot if that call raises, else the original one; in
    each case the browser is closed exactly once, and once it is closed the
    run raises what left the handler. *)
Theorem diagnostic_failure_replaces_original w e :
  fault w (Launch true) = None ->
  fault w NewPage = None ->
  outcome (setup_steps w ThePage) = Ok tt ->
  outcome (forecast_checks w ThePage) = Raise e ->
  (forall e1, fault w Content = Some e1 ->
     outcome (forecast_block w ThePage) = Raise e1) /\
  (forall e2, fault w Content = None ->
     fault w (Screenshot failure_path) = Some e2 ->
     outcome (forecast_block w ThePage) = Raise e2) /\
  (fault w Content = None -> fault w (Screenshot failure_path) = None ->
     outcome (forecast_block w ThePage) = Raise e) /\
  closes (trace (run w)) = 1 /\
  (fault w Close = None -> outcome (run w) = outcome (forecast_block w ThePage)).
Proof.
  intros H1 H2 H3 H4.
  rewrite (forecast_block_raises w ThePage e H4); unfold propagated.
  cbn [outcome snd]; repeat split.
  - intros e1 ->; reflexivity.
  - intros e2 -> ->; reflexivity.
  - intros -> ->; reflexivity.
  - apply (browser_closed_once_started w H1 H2).
  - intros Hc; rewrite (run_reaches_forecast w H1 H2 H3), Hc.
    rewrite (forecast_block_raises w ThePage e H4); reflexivity.
Qed.

Lemma diagnostic_failure_replaces_original_witness :
  (forall e1, fault crashed Content = Some e1 ->
     outcome (forecast_block crashed ThePage) = Raise e1) /\
  (forall e2, fault crashed Content = None ->
     fault crashed (Screenshot failure_path) = Some e2 ->
     outcome (forecast_block crashed ThePage) = Raise e2) /\
  (fault crashed Content = None -> fault crashed (Screenshot failure_path) = None ->
     outcome (forecast_block crashed ThePage) = Raise (AssertionError 15000)) /\
  closes (trace (run crashed)) = 1 /\
  (fault crashed Close = None ->
   outcome (run crashed) = outcome (forecast_block crashed ThePage)).
Proof.
  apply (diagnostic_failure_replaces_original crashed); reflexivity.
Defined.

(** C10 (as amended): when the forecast phase is reached and one of its
    three waits does not pass, the success screenshot is never asked for and
    the success path is not written; the failure path is the only one that
    can be written, and it is written exactly when the two diagnostic calls
    of the handler ([page.content()] and the failure screenshot) return. *)
Theorem failed_wait_never_writes_success_path w :
  fault w (Launch true) = None ->
  fault w NewPage = None ->
  outcome (setup_steps w ThePage) = Ok tt ->
  forecast_waits_pass w = false ->
  ~ In (Called (Screenshot success_path)) (trace (run w)) /\
  ~ In (Wrote success_path) (trace (run w)) /\
  files_written (trace (run w)) =
    if no_fault (fault w Content) && no_fault (fault w (Screenshot failure_path))
    then [failure_path] else [].
Proof.
  intros H1 H2 H3 H4.
  destruct (forecast_checks_wait_fails w ThePage H4) as ((e & He) & Hq).
  destruct (quiet_observations _ Hq) as (_ & Hcf & _ & Hcs).
  destruct (quiet_observations _ (setup_steps_quiet w ThePage))
    as (_ & Hsf & _ & Hss).
  assert (F : files_written (trace (run w)) =
              if no_fault (fault w Content) &&
                 no_fault (fault w (Screenshot failure_path))
              then [failure_path] else []).
  { rewrite (run_reaches_forecast w H1 H2 H3), (forecast_block_raises w ThePage e He).
    cbn [trace fst app files_written].
    rewrite !files_written_app, Hsf, Hcf; unfold diagnose_trace.
    destruct (fault w Content); [reflexivity |].
    destruct (fault w (Screenshot failure_path)); reflexivity. }
  split; [| split; [| exact F]].
  - rewrite (run_reaches_forecast w H1 H2 H3), (forecast_block_raises w ThePage e He).
    cbn [trace fst app]; intros [E|[E|E]]; try discriminate.
    apply in_app_or in E as [E|E]; [| destruct E as [E|[]]; discriminate].
    apply in_app_or in E as [E|E]; [exact (Hss _ E) |].
    apply in_app_or in E as [E|E]; [exact (Hcs _ E) |].
    unfold diagnose_trace in E.
    destruct (fault w Content); cbn in E;
      [repeat (destruct E as [E|E]; [discriminate |]); exact E |].
    assert (D : Called (Screenshot failure_path) <> Called (Screenshot success_path))
      by (intros X; inversion X as [P]; exact (paths_differ P)).
    destruct (fault w (Screenshot failure_path)); cbn in E;
      repeat (destruct E as [E|E]; [first [discriminate | exact (D E)] |]);
      exact E.
  - rewrite In_files_written, F.
    destruct (no_fault (fault w Content) &&
              no_fault (fault w (Screenshot failure_path)));
      [intros [E|[]]; exact (paths_differ E) | intros []].
Qed.

Lemma failed_wait_never_writes_success_path_witness :
  ~ In (Called (Screenshot success_path)) (trace (run stuck_loading)) /\
  ~ In (Wrote success_path) (trace (run stuck_loading)) /\
  files_written (trace (run stuck_loading)) = [failure_path].
Proof.
  apply (failed_wait_never_writes_success_path stuck_loading); reflexivity.
Defined.

(** C10 as stated fails in its last part: the wait for the loading text
    fails, the handler's [page.content()] raises, and the run ends with no
    file written at all, so the failure path is not written either. *)
Lemma failure_path_not_written_counterexample :
  outcome (setup_steps crashed ThePage) = Ok tt /\
  wait_ok crashed (ToBeHidden loading_text) 15000 = false /\
  files_written (trace (run crashed)) = [] /\
  ~ In (Wrote failure_path) (trace (run crashed)).
Proof.
  repeat split.
  rewrite In_files_written; intros [].
Qed.

(** ** The timeouts of the waits *)

Lemma run_keeps_policy w : only keeps_policy (run w).
Proof. check_calls. Qed.

Lemma setup_steps_ok w p :
  outcome (setup_steps w p) = Ok tt ->
  trace (setup_steps w p) =
  [Waited (Goto home_url) 30000;
   Waited (ToBeVisible day_button) 15000;
   Called (Click day_button);
   Waited (ToBeVisible lunar_modal_body) 10000;
   Called (Fill location_input "Wellington");
   Waited (ToBeVisible suggestion_to_click) 15000;
   Called (Click suggestion_to_click)].
Proof.
  unfold_calls; cbn.
  answer w (Goto home_url).
  on_time w (Goto home_url) 30000%N.
  answer w (ToBeVisible day_button).
  on_time w (ToBeVisible day_button) 15000%N.
  answer w (Click day_button).
  answer w (ToBeVisible lunar_modal_body).
  on_time w (ToBeVisible lunar_modal_body) 10000%N.
  answer w (Fill location_input "Wellington").
  answer w (ToBeVisible suggestion_to_click).
  on_time w (ToBeVisible suggestion_to_click) 15000%N.
Qed.

(** C7: in every run, each wait issued after the navigation carries the
    timeout of the policy: 15 seconds for the address suggestion and for the
    loading text to go away (and for the day button), 5 seconds for the
    forecast heading and the 'Temperature:' label, 10 seconds for the modal;
    and a run that returns has issued exactly these waits after the
    navigation. *)
Theorem waits_follow_timeout_policy w :
  (forall a ms, In (Waited a ms) (trace (run w)) ->
     is_navigation a = false -> policy_timeout a = Some ms) /\
  (outcome (run w) = Ok tt ->
   waits (trace (run w)) =
   [(Goto home_url, 30000%N);
    (ToBeVisible day_button, 15000%N);
    (ToBeVisible lunar_modal_body, 10000%N);
    (ToBeVisible suggestion_to_click, 15000%N);
    (ToBeVisible weather_header, 5000%N);
    (ToBeHidden loading_text, 15000%N);
    (ToBeVisible temperature_label, 5000%N)]).
Proof.
  split.
  - intros a ms Hin Hnav.
    pose proof (only_In keeps_policy _ _ (run_keeps_policy w) Hin) as K.
    cbn in K; rewrite Hnav in K; cbn in K.
    destruct (policy_timeout a) as [ms'|]; [| discriminate].
    apply N.eqb_eq in K; subst; reflexivity.
  - intros H.
    pose proof (run_returns w H) as R.
    assert (S : outcome (setup_steps w ThePage) = Ok tt).
    { destruct (fault w (Launch true)) as [e|] eqn:H1;
        [rewrite (run_launch_fails w e H1) in H; discriminate |].
      destruct (fault w NewPage) as [e|] eqn:H2;
        [rewrite (run_new_page_fails w e H1 H2) in H; discriminate |].
      destruct (outcome (setup_steps w ThePage)) as [[]|e] eqn:H3; auto.
      rewrite (run_stops_in_setup w e H1 H2 H3) in H; cbn in H.
      destruct (fault w Close); discriminate. }
    rewrite R, (setup_steps_ok w ThePage S); reflexivity.
Qed.

Lemma waits_follow_timeout_policy_witness :
  policy_timeout (ToBeHidden loading_text) = Some 15000%N /\
  waits (trace (run calm)) =
   [(Goto home_url, 30000%N);
    (ToBeVisible day_button, 15000%N);
    (ToBeVisible lunar_modal_body, 10000%N);
    (ToBeVisible suggestion_to_click, 15000%N);
    (ToBeVisible weather_header, 5000%N);
    (ToBeHidden loading_text, 15000%N);
    (ToBeVisible temperature_label, 5000%N)].
Proof.
  split.
  - apply (proj1 (waits_follow_timeout_policy calm)); [| reflexivity].
    cbn; auto 20.
  - apply (proj2 (waits_follow_timeout_policy calm)); reflexivity.
Defined.

(** ** The run as a whole *)

Lemma stdout_app t1 t2 : stdout (t1 ++ t2) = stdout t1 ++ stdout t2.
Proof.
  induction t1 as [|[a|a ms|s|f] t1 IH]; simpl; auto.
  rewrite IH; reflexivity.
Qed.

Lemma calls_app t1 t2 : calls (t1 ++ t2) = calls t1 ++ calls t2.
Proof.
  induction t1 as [|[a|a ms|s|f] t1 IH]; simpl; auto; rewrite IH; reflexivity.
Qed.

(** Closes a goal [_ <-> _] between two decided sides. *)
Ltac decided :=
  cbn in *; try solve [split; intros; first [discriminate | reflexivity]].
Ltac answers w a := destruct (fault w a) eqn:?; decided.
Ltac in_bound w a ms := destruct (in_time w a ms) eqn:?; decided.

Lemma setup_steps_outcome w p :
  outcome (setup_steps w p) = Ok tt <-> setup_pass w = true.
Proof.
  unfold setup_pass, wait_ok; unfold_calls; cbn.
  answers w (Goto home_url).
  in_bound w (Goto home_url) 30000%N.
  answers w (ToBeVisible day_button).
  in_bound w (ToBeVisible day_button) 15000%N.
  answers w (Click day_button).
  answers w (ToBeVisible lunar_modal_body).
  in_bound w (ToBeVisible lunar_modal_body) 10000%N.
  answers w (Fill location_input "Wellington").
  answers w (ToBeVisible suggestion_to_click).
  in_bound w (ToBeVisible suggestion_to_click) 15000%N.
  answers w (Click suggestion_to_click).
Qed.

Lemma forecast_checks_outcome w p :
  outcome (forecast_checks w p) = Ok tt <-> checks_pass w = true.
Proof.
  unfold checks_pass, forecast_waits_pass, wait_ok; unfold_calls; cbn.
  answers w (ScrollIntoViewIfNeeded weather_header).
  answers w (ToBeVisible weather_header).
  in_bound w (ToBeVisible weather_header) 5000%N.
  answers w (ToBeHidden loading_text).
  in_bound w (ToBeHidden loading_text) 15000%N.
  answers w (ToBeVisible temperature_label).
  in_bound w (ToBeVisible temperature_label) 5000%N.
  answers w (Screenshot success_path).
Qed.

Lemma setup_steps_prefix w p :
  exists n, trace (setup_steps w p) = firstn (S n) setup_trace.
Proof.
  unfold_calls; cbn.
  answer w (Goto home_url); [now exists 0 |].
  on_time w (Goto home_url) 30000%N; [| now exists 0].
  answer w (ToBeVisible day_button); [now exists 1 |].
  on_time w (ToBeVisible day_button) 15000%N; [| now exists 1].
  answer w (Click day_button); [now exists 2 |].
  answer w (ToBeVisible lunar_modal_body); [now exists 3 |].
  on_time w (ToBeVisible lunar_modal_body) 10000%N; [| now exists 3].
  answer w (Fill location_input "Wellington"); [now exists 4 |].
  answer w (ToBeVisible suggestion_to_click); [now exists 5 |].
  on_time w (ToBeVisible suggestion_to_click) 15000%N;
    [now exists 6 | now exists 5].
Qed.

(** When the checks raise, they printed nothing and wrote no file. *)
Lemma forecast_checks_raise_silent w p e :
  outcome (forecast_checks w p) = Raise e ->
  stdout (trace (forecast_checks w p)) = [] /\
  files_written (trace (forecast_checks w p)) = [].
Proof.
  unfold_calls; cbn.
  answer w (ScrollIntoViewIfNeeded weather_header).
  answer w (ToBeVisible weather_header).
  on_time w (ToBeVisible weather_header) 5000%N.
  answer w (ToBeHidden loading_text).
  on_time w (ToBeHidden loading_text) 15000%N.
  answer w (ToBeVisible temperature_label).
  on_time w (ToBeVisible temperature_label) 5000%N.
  answer w (Screenshot success_path).
Qed.

Lemma run_cases w : run_case w.
Proof.
  destruct (fault w (Launch true)) as [e|] eqn:H1;
    [exact (NoBrowser w e H1 (run_launch_fails w e H1)) |].
  destruct (fault w NewPage) as [e|] eqn:H2;
    [exact (NoPage w e H1 H2 (run_new_page_fails w e H1 H2)) |].
  destruct (outcome (setup_steps w ThePage)) as [[]|e] eqn:H3;
    [| exact (SetupFailed w e H1 H2 H3 (run_stops_in_setup w e H1 H2 H3))].
  pose proof (run_reaches_forecast w H1 H2 H3) as R.
  rewrite (setup_steps_ok w ThePage H3) in R.
  destruct (outcome (forecast_checks w ThePage)) as [[]|e] eqn:H4.
  - apply (ChecksPassed w H1 H2 H3 H4).
    rewrite R; unfold forecast_block.
    rewrite (try_except_ok _ _ tt H4), (forecast_checks_ok w ThePage H4).
    reflexivity.
  - apply (ChecksFailed w e H1 H2 H3 H4).
    rewrite R, (forecast_block_raises w ThePage e H4); reflexivity.
Qed.

Lemma setup_pass_false w p e :
  outcome (setup_steps w p) = Raise e -> setup_pass w = false.
Proof.
  intros H; destruct (setup_pass w) eqn:E; auto.
  apply (setup_steps_outcome w p) in E; congruence.
Qed.

Lemma checks_pass_false w p e :
  outcome (forecast_checks w p) = Raise e -> checks_pass w = false.
Proof.
  intros H; destruct (checks_pass w) eqn:E; auto.
  apply (forecast_checks_outcome w p) in E; congruence.
Qed.

Lemma forecast_reached_true w :
  fault w (Launch true) = None ->
  fault w NewPage = None ->
  outcome (setup_steps w ThePage) = Ok tt ->
  forecast_reached w = true.
Proof.
  intros H1 H2 H3; unfold forecast_reached; rewrite H1, H2; cbn.
  apply (setup_steps_outcome w ThePage); exact H3.
Qed.

(** What a run printed and wrote, and how it ended, read off the world. *)
Lemma steps_pass_case w :
  steps_pass w = true ->
  run w =
  ([Called (Launch true); Called NewPage] ++
   (setup_trace ++ forecast_trace) ++ [Called Close],
   after_close w (Ok tt)).
Proof.
  unfold steps_pass; intros H; apply andb_prop in H as [Hr Hc].
  destruct (run_cases w) as [e H1 R|e H1 H2 R|e H1 H2 H3 R|H1 H2 H3 H4 R|e H1 H2 H3 H4 R];
    auto; exfalso.
  - unfold forecast_reached in Hr; rewrite H1 in Hr; discriminate.
  - unfold forecast_reached in Hr; rewrite H1, H2 in Hr; discriminate.
  - unfold forecast_reached in Hr; rewrite H1, H2 in Hr; cbn in Hr.
    rewrite (setup_pass_false w ThePage e H3) in Hr; discriminate.
  - rewrite (checks_pass_false w ThePage e H4) in Hc; discriminate.
Qed.

Lemma files_written_run w :
  files_written (trace (run w)) =
  if steps_pass w then [success_path]
  else if forecast_reached w && no_fault (fault w Content) &&
          no_fault (fault w (Screenshot failure_path))
       then [failure_path]
       else [].
Proof.
  destruct (run_cases w) as [e H1 R|e H1 H2 R|e H1 H2 H3 R|H1 H2 H3 H4 R|e H1 H2 H3 H4 R];
    rewrite R; unfold steps_pass, forecast_reached; cbn [trace fst].
  - rewrite H1; reflexivity.
  - rewrite H1, H2; reflexivity.
  - rewrite H1, H2, (setup_pass_false w ThePage e H3).
    cbn [no_fault andb app files_written].
    destruct (quiet_observations _ (setup_steps_quiet w ThePage)) as (_ & Hf & _).
    rewrite files_written_app, Hf; reflexivity.
  - pose proof (forecast_reached_true w H1 H2 H3) as Hr.
    unfold forecast_reached in Hr; rewrite Hr.
    apply (forecast_checks_outcome w ThePage) in H4; rewrite H4; reflexivity.
  - pose proof (forecast_reached_true w H1 H2 H3) as Hr.
    unfold forecast_reached in Hr; rewrite Hr.
    rewrite (checks_pass_false w ThePage e H4).
    destruct (forecast_checks_raise_silent w ThePage e H4) as (_ & Hf).
    cbn [app files_written setup_trace].
    rewrite !files_written_app, Hf; unfold diagnose_trace; cbn.
    destruct (fault w Content); [reflexivity |].
    destruct (fault w (Screenshot failure_path)); reflexivity.
Qed.

(** ** Subsequences *)

Lemma subseq_nil_l {A} (m : list A) : subseq [] m.
Proof. induction m; constructor; auto. Qed.

Lemma subseq_refl {A} (l : list A) : subseq l l.
Proof. induction l; [apply subseq_nil | apply subseq_take; auto]. Qed.

(** Greedy matching: keep an element when the heads agree. *)
Ltac match_calls :=
  repeat first [apply subseq_nil | apply subseq_take | apply subseq_skip].

Lemma subseq_app {A} (l1 m1 l2 m2 : list A) :
  subseq l1 m1 -> subseq l2 m2 -> subseq (l1 ++ l2) (m1 ++ m2).
Proof.
  intros H1 H2; induction H1; simpl; auto;
    [apply subseq_skip | apply subseq_take]; auto.
Qed.

Lemma subseq_In {A} (l m : list A) x : subseq l m -> In x l -> In x m.
Proof.
  intros H; induction H; simpl; auto.
  intros [E|E]; auto.
Qed.

Lemma subseq_NoDup {A} (l m : list A) : subseq l m -> NoDup m -> NoDup l.
Proof.
  intros H; induction H; intros N; auto.
  - inversion N; auto.
  - inversion N as [|? ? Hx Hm]; subst; apply NoDup_cons; auto.
    intros Hin; apply Hx; exact (subseq_In _ _ _ H Hin).
Qed.

Lemma subseq_calls_firstn n t : subseq (calls (firstn n t)) (calls t).
Proof.
  revert n; induction t as [|ev t IH]; intros [|n]; simpl;
    try apply subseq_nil_l.
  destruct ev; try apply subseq_take; apply IH.
Qed.

Lemma subseq_wait_budget l m :
  subseq l m -> (wait_budget l <= wait_budget m)%N.
Proof.
  intros H; induction H as [|[a [ms|]] l m H IH|[a [ms|]] l m H IH]; simpl; lia.
Qed.

Lemma program_order_NoDup : NoDup program_order.
Proof.
  unfold program_order.
  repeat (constructor; [cbv; intuition discriminate |]).
  constructor.
Qed.

Lemma calls_program_order w : subseq (calls (trace (run w))) program_order.
Proof.
  change program_order with
    (calls [Called (Launch true); Called NewPage] ++
     (calls setup_trace ++ calls forecast_trace ++
      [(Content, None); (Screenshot failure_path, None)]) ++
     calls [Called Close]).
  destruct (run_cases w) as [e H1 R|e H1 H2 R|e H1 H2 H3 R|H1 H2 H3 H4 R|e H1 H2 H3 H4 R];
    rewrite R; cbn [trace fst].
  - match_calls.
  - match_calls.
  - rewrite !calls_app; apply subseq_app; [apply subseq_refl |].
    apply subseq_app; [| apply subseq_refl].
    destruct (setup_steps_prefix w ThePage) as [n ->].
    rewrite <- (app_nil_r (calls (firstn _ _))).
    apply subseq_app; [apply subseq_calls_firstn | apply subseq_nil_l].
  - rewrite !calls_app; apply subseq_app; [apply subseq_refl |].
    apply subseq_app; [| apply subseq_refl].
    apply subseq_app; [apply subseq_refl |].
    rewrite <- (app_nil_r (calls forecast_trace)) at 1.
    apply subseq_app; [apply subseq_refl | apply subseq_nil_l].
  - rewrite !calls_app; apply subseq_app; [apply subseq_refl |].
    apply subseq_app; [| apply subseq_refl].
    apply subseq_app; [apply subseq_refl |].
    apply subseq_app.
    + destruct (forecast_checks_prefix w ThePage) as [n ->].
      apply subseq_calls_firstn.
    + unfold diagnose_trace.
      destruct (fault w Content); [cbn; match_calls |].
      destruct (fault w (Screenshot failure_path)); cbn; match_calls.
Qed.

(** ** Further properties of the run *)

Lemma run_returns_iff_all_pass_aux w :
  outcome (run w) = Ok tt <-> all_pass w = true.
Proof.
  unfold all_pass; split.
  - intros H.
    destruct (run_cases w) as [e H1 R|e H1 H2 R|e H1 H2 H3 R|H1 H2 H3 H4 R|e H1 H2 H3 H4 R];
      rewrite R in H; unfold after_close in H; cbn [outcome snd] in H;
      try discriminate;
      destruct (fault w Close) eqn:Hc; try discriminate.
    unfold steps_pass; rewrite (forecast_reached_true w H1 H2 H3).
    apply (forecast_checks_outcome w ThePage) in H4; rewrite H4; reflexivity.
  - intros H; apply andb_prop in H as [Hs Hc].
    rewrite (steps_pass_case w Hs); unfold after_close; cbn [outcome snd].
    destruct (fault w Close); [discriminate | reflexivity].
Qed.

(** X1: the run returns normally exactly when every call of the script
    returns: the launch, the page creation, steps 1 to 3, the scroll, the
    three forecast waits, the success screenshot and the closing of the
    browser; and that is exactly when the process exits with status 0. *)
Theorem run_returns_iff_every_call_returns w :
  (outcome (run w) = Ok tt <-> all_pass w = true) /\
  (snd (main w) = 0%Z <-> all_pass w = true).
Proof.
  pose proof (run_returns_iff_all_pass_aux w) as I.
  split; [exact I |].
  rewrite <- I, main_status.
  destruct (outcome (run w)) as [[]|e]; cbn; split; auto; discriminate.
Qed.

(** X2: when [browser.close()] raises in the [finally], its exception is the
    one that leaves the run, whatever the guarded block did: a failure of an
    earlier step is replaced, and a run whose steps all passed and whose
    success screenshot is written still ends with an exception and a
    non-zero exit status. *)
Theorem close_failure_masks_outcome w e :
  fault w (Launch true) = None ->
  fault w NewPage = None ->
  fault w Close = Some e ->
  outcome (run w) = Raise e /\
  snd (main w) <> 0%Z /\
  (steps_pass w = true -> files_written (trace (run w)) = [success_path]).
Proof.
  intros H1 H2 H3.
  assert (O : outcome (run w) = Raise e)
    by (rewrite (run_started w H1 H2), H3; reflexivity).
  repeat split; auto.
  - rewrite main_status, O; discriminate.
  - intros Hs; rewrite files_written_run, Hs; reflexivity.
Qed.

Lemma close_failure_masks_outcome_witness :
  outcome (run close_breaks) = Raise (Error "Connection lost") /\
  snd (main close_breaks) <> 0%Z /\
  (steps_pass close_breaks = true ->
   files_written (trace (run close_breaks)) = [success_path]).
Proof.
  apply (close_failure_masks_outcome close_breaks); reflexivity.
Defined.

(** X3: a run writes at most one file: nothing, the success screenshot
    alone, or the failure screenshot alone; never both. *)
Theorem at_most_one_file_written w :
  files_written (trace (run w)) = [] \/
  files_written (trace (run w)) = [success_path] \/
  files_written (trace (run w)) = [failure_path].
Proof.
  rewrite files_written_run.
  destruct (steps_pass w); auto.
  destruct (forecast_reached w && no_fault (fault w Content) &&
            no_fault (fault w (Screenshot failure_path))); auto.
Qed.

(** X4: the success screenshot is written exactly when every step up to and
    including it returned: browser and page were created, steps 1 to 3
    passed, the scroll and the three forecast waits passed. *)
Theorem success_screenshot_iff_steps_pass w :
  In (Wrote success_path) (trace (run w)) <-> steps_pass w = true.
Proof.
  rewrite In_files_written, files_written_run.
  destruct (steps_pass w); [split; simpl; auto |].
  destruct (forecast_reached w && no_fault (fault w Content) &&
            no_fault (fault w (Screenshot failure_path)));
    (split; [simpl | discriminate]).
  - intros [E|[]]; exfalso; exact (paths_differ E).
  - intros [].
Qed.

(** X5: the failure screenshot is written exactly when the forecast phase
    was reached, one call of the inner [try] raised, and both
    [page.content()] and the failure screenshot returned. *)
Theorem failure_screenshot_iff_checks_fail w :
  In (Wrote failure_path) (trace (run w)) <->
  forecast_reached w = true /\ checks_pass w = false /\
  fault w Content = None /\ fault w (Screenshot failure_path) = None.
Proof.
  rewrite In_files_written, files_written_run; unfold steps_pass.
  destruct (forecast_reached w); cbn [andb].
  - destruct (checks_pass w).
    + split; [simpl; intros [E|[]] | intros (_ & E & _); discriminate].
      exfalso; exact (paths_differ (eq_sym E)).
    + destruct (fault w Content); cbn;
        [split; [intros [] | intros (_ & _ & E & _); discriminate] |].
      destruct (fault w (Screenshot failure_path)); cbn;
        [split; [intros [] | intros (_ & _ & _ & E); discriminate] |].
      split; auto.
  - split; [intros [] | intros (E & _); discriminate].
Qed.

(** X6: whatever the world answers, the library calls of a run are calls of
    the script in the order of its lines, each with the timeout written
    there, some left out: no call is issued twice (nothing is retried), none
    out of order. *)
Theorem calls_follow_program_order w :
  subseq (calls (trace (run w))) program_order /\
  NoDup (calls (trace (run w))).
Proof.
  split; [apply calls_program_order |].
  exact (subseq_NoDup _ _ (calls_program_order w) program_order_NoDup).
Qed.



(** X8: every run that returns normally did the same thing: all the calls of
    the script, once each and in order, with the success screenshot written
    and one line printed. *)
Theorem successful_run_is_the_full_script w :
  outcome (run w) = Ok tt ->
  trace (run w) =
    [Called (Launch true); Called NewPage] ++
    setup_trace ++ forecast_trace ++ [Called Close] /\
  stdout (trace (run w)) = [String.append "Screenshot saved to " success_path].
Proof.
  intros H; apply (run_returns_iff_all_pass_aux w) in H.
  unfold all_pass in H; apply andb_prop in H as [Hs _].
  rewrite (steps_pass_case w Hs); split; reflexivity.
Qed.

Lemma successful_run_is_the_full_script_witness :
  trace (run slow_load) =
    [Called (Launch true); Called NewPage] ++
    setup_trace ++ forecast_trace ++ [Called Close] /\
  stdout (trace (run slow_load)) =
    [String.append "Screenshot saved to " success_path].
Proof.
  apply (successful_run_is_the_full_script slow_load); reflexivity.
Defined.

(** X9: when a call of the inner [try] raises [e], the run prints the line
    naming [e] and the line announcing the dump, then the page markup if
    [page.content()] returns, then the line announcing the failure
    screenshot if that screenshot returns too; it prints nothing else. *)
Theorem output_of_a_failed_forecast w e :
  fault w (Launch true) = None ->
  fault w NewPage = None ->
  outcome (setup_steps w ThePage) = Ok tt ->
  outcome (forecast_checks w ThePage) = Raise e ->
  stdout (trace (run w)) =
  [String.append "An exception occurred during assertion: " (str w e);
   "Dumping page content:"] ++
  match fault w Content with
  | Some _ => []
  | None =>
      markup w ::
      match fault w (Screenshot failure_path) with
      | Some _ => []
      | None => [String.append "Failure screenshot saved to " failure_path]
      end
  end.
Proof.
  intros H1 H2 H3 H4.
  rewrite (run_reaches_forecast w H1 H2 H3), (forecast_block_raises w ThePage e H4).
  destruct (quiet_observations _ (setup_steps_quiet w ThePage)) as (Ho & _).
  destruct (forecast_checks_raise_silent w ThePage e H4) as (Hc & _).
  cbn [trace fst app stdout].
  rewrite !stdout_app, Ho, Hc; unfold diagnose_trace; cbn [app stdout].
  destruct (fault w Content); [reflexivity |].
  destruct (fault w (Screenshot failure_path)); reflexivity.
Qed.

Lemma output_of_a_failed_forecast_witness :
  stdout (trace (run crashed)) =
  [String.append "An exception occurred during assertion: "
     (str crashed (AssertionError 15000));
   "Dumping page content:"] ++
  match fault crashed Content with
  | Some _ => []
  | None =>
      markup crashed ::
      match fault crashed (Screenshot failure_path) with
      | Some _ => []
      | None => [String.append "Failure screenshot saved to " failure_path]
      end
  end.
Proof.
  apply (output_of_a_failed_forecast crashed); reflexivity.
Defined.

(** X10: the [timeout=] arguments of the bounded calls of a run add up to at
    most 95 seconds (30 + 15 + 10 + 15 + 5 + 15 + 5). *)
Theorem wait_budget_bounded w :
  (wait_budget (calls (trace (run w))) <= 95000)%N.
Proof.
  exact (subseq_wait_budget _ _ (calls_program_order w)).
Qed.

(** X11: when the launch or the page creation raises, that exception leaves
    the run at once: no navigation or other wait is issued, nothing is
    printed or written, and [browser.close()] is not called, even when the
    browser had been launched. *)
Theorem startup_failure_ends_run w e :
  fault w (Launch true) = Some e \/
  (fault w (Launch true) = None /\ fault w NewPage = Some e) ->
  outcome (run w) = Raise e /\
  closes (trace (run w)) = 0 /\
  waits (trace (run w)) = [] /\
  stdout (trace (run w)) = [] /\
  files_written (trace (run w)) = [].
Proof.
  intros [H|[H1 H2]].
  - rewrite (run_launch_fails w e H); repeat split.
  - rewrite (run_new_page_fails w e H1 H2); repeat split.
Qed.

Lemma startup_failure_ends_run_witness :
  outcome (run no_page) = Raise (Error "Target closed") /\
  closes (trace (run no_page)) = 0 /\
  waits (trace (run no_page)) = [] /\
  stdout (trace (run no_page)) = [] /\
  files_written (trace (run no_page)) = [].
Proof.
  apply (startup_failure_ends_run no_page); right; split; reflexivity.
Defined.
